(** * Vrindavan Sales Auditor (src/app.py): a shallow embedding

    Python [str] values are modelled as lists of Unicode code points
    ([pystr]); Python literals are written with [lit] (ASCII) or with the
    code points spelled out.  External services (the generative-model API,
    PyPDF2, [json.loads], pandas' CSV writer) are function arguments: an
    [option] result of [None] stands for the call raising an exception. *)

From Stdlib Require Import List NArith Arith Lia Bool String Ascii.
#[local] Set Warnings "-abstract-large-number -register-all".
Import ListNotations.
Open Scope list_scope.

(** ** Python strings *)

Definition pystr := list N.

Fixpoint lit (s : string) : pystr :=
  match s with
  | EmptyString => []
  | String c s' => N_of_ascii c :: lit s'
  end.

(** [str.isspace] for one code point (CPython's [Py_UNICODE_ISSPACE]). *)
Definition is_space (c : N) : bool :=
  ((9 <=? c) && (c <=? 13))%N || ((28 <=? c) && (c <=? 32))%N
  || (c =? 133)%N || (c =? 160)%N || (c =? 5760)%N
  || ((8192 <=? c) && (c <=? 8202))%N
  || (c =? 8232)%N || (c =? 8233)%N || (c =? 8239)%N || (c =? 8287)%N
  || (c =? 12288)%N.

Fixpoint lstrip (s : pystr) : pystr :=
  match s with
  | [] => []
  | c :: s' => if is_space c then lstrip s' else s
  end.

Definition rstrip (s : pystr) : pystr := rev (lstrip (rev s)).

(** [s.strip()] with no argument. *)
Definition strip (s : pystr) : pystr := rstrip (lstrip s).

Definition is_hash (c : N) : bool := (c =? 35)%N.

(** [s.split('###')]: the text is scanned from the left and every
    non-overlapping occurrence of the separator closes a segment; [cur] holds
    the current segment reversed. *)
Fixpoint split3 (cur : pystr) (s : pystr) : list pystr :=
  match s with
  | [] => [rev cur]
  | c1 :: s1 =>
      match s1 with
      | c2 :: c3 :: rest =>
          if is_hash c1 && is_hash c2 && is_hash c3
          then rev cur :: split3 [] rest
          else split3 (c1 :: cur) s1
      | _ => split3 (c1 :: cur) s1
      end
  end.

Definition split_hash3 (s : pystr) : list pystr := split3 [] s.

Definition str_eqb (a b : pystr) : bool :=
  if list_eq_dec N.eq_dec a b then true else false.

(** Python truthiness of a [str]. *)
Definition truthy (s : pystr) : bool :=
  match s with [] => false | _ => true end.

(** Dicts with string keys, in insertion order; [record] is a dict of
    strings, one row of the result table. *)
Definition record := list (pystr * pystr).

Fixpoint dict_get {A} (k : pystr) (d : list (pystr * A)) : option A :=
  match d with
  | [] => None
  | (k', v) :: d' => if list_eq_dec N.eq_dec k k' then Some v else dict_get k d'
  end.

(** [d[k] = v]: an existing key keeps its place, a new key goes last. *)
Fixpoint dict_set {A} (k : pystr) (v : A) (d : list (pystr * A)) : list (pystr * A) :=
  match d with
  | [] => [(k, v)]
  | (k', v') :: d' =>
      if list_eq_dec N.eq_dec k k' then (k', v) :: d' else (k', v') :: dict_set k v d'
  end.

(** ** analyze_call (lines 57-103) *)

Definition analyze_prompt_head : pystr := lit "
    You are a QA Auditor for 'The House of Abhinandan Lodha' (Navratna at Vrindavan).
    Analyze this sales call transcript. Output strictly in English.

    **Extract these 10 Fields:**
    1. Lead Intent (Pure Investor / Spiritual Buyer / Second-home / Mixed)
    2. Brand Trust (Yes/No + Detail)
    3. Value (Yes/No + Detail)
    4. ROI (Yes/No + Detail)
    5. Spiritual (Yes/No + Detail)
    6. Technical (Yes/No + Detail)
    7. Urgency: 6L+2L Offer (Did they use it?)
    8. Urgency: Price Movement (Did they use it?)
    9. Family Objections
    10. Pitch Flow Adherence %

    **OUTPUT FORMAT (Single Line separated by ###):**
    CSM Name###Customer Name###Lead Intent###Brand Trust (Yes/No)###Brand Trust Detail###Value (Yes/No)###Value Detail###ROI (Yes/No)###ROI Detail###Spiritual (Yes/No)###Spiritual Detail###Technical (Yes/No)###Technical Detail###Urgency: Offers###Urgency: Price Move###Family Objections###Pitch Flow %
    
    **TRANSCRIPT:**
    ".

(** [prompt = <the prompt text> + text[:30000]] *)
Definition analyze_prompt (text : pystr) : pystr :=
  analyze_prompt_head ++ firstn 30000 text.

(** The emoji prefixes of the keys: U+26A0 U+FE0F and U+1F4DD. *)
Definition warn (s : string) : pystr := [9888; 65039]%N ++ lit s.
Definition memo (s : string) : pystr := [128221]%N ++ lit s.

Definition analysis_keys : list pystr :=
  [lit "CSM Name"; lit "Customer Name"; lit "Lead Intent";
   warn " Brand Trust"; memo " Brand Detail";
   warn " Value"; memo " Value Detail";
   warn " ROI"; memo " ROI Detail";
   warn " Spiritual"; memo " Spiritual Detail";
   warn " Technical"; memo " Technical Detail";
   lit "Urgency: 6L+2L Offer"; lit "Urgency: Price Movement";
   lit "Family/Spouse Objections"; lit "Pitch Flow Adherence"].

(** [while len(parts) < 17: parts.append("-")] *)
Definition pad17 (parts : list pystr) : list pystr :=
  parts ++ repeat (lit "-") (17 - List.length parts).

(** The dict literal of lines 92-101: key [i] gets [parts[i]]. *)
Definition build_record (parts : list pystr) : record :=
  map (fun i => (nth i analysis_keys [], nth i parts [])) (seq 0 17).

(** [generate_content] is the model call: [None] when it raises or when
    [response.text] raises; otherwise the reply text. *)
Definition analyze_call (generate_content : pystr -> option pystr) (text : pystr)
  : option record :=
  match generate_content (analyze_prompt text) with
  | None => None
  | Some reply =>
      let raw := strip reply in
      let parts := map strip (split_hash3 raw) in
      Some (build_record (pad17 parts))
  end.

(** The segments the code reads from a reply, stripped. *)
Definition reply_parts (reply : pystr) : list pystr :=
  map strip (split_hash3 (strip reply)).

(** ** get_gemini_model (lines 38-55) *)

Record model_info := {
  name : pystr;
  supported_generation_methods : list pystr
}.

(** [str.lower()] on code points: A-Z, and the two characters whose
    lowercase form contains ASCII letters (U+0130 and the Kelvin sign
    U+212A); every other character is kept, since no other lowercase
    mapping yields an ASCII letter, and only ASCII needles are searched. *)
Definition lower_char (c : N) : pystr :=
  if ((65 <=? c) && (c <=? 90))%N then [(c + 32)%N]
  else if (c =? 304)%N then [105; 775]%N
  else if (c =? 8490)%N then [107%N]
  else [c].

Definition lower (s : pystr) : pystr := flat_map lower_char s.

Fixpoint prefixb (p s : pystr) : bool :=
  match p, s with
  | [], _ => true
  | c :: p', d :: s' => (c =? d)%N && prefixb p' s'
  | _ :: _, [] => false
  end.

(** [needle in hay] for strings. *)
Fixpoint contains (needle hay : pystr) : bool :=
  prefixb needle hay ||
  match hay with
  | [] => false
  | _ :: hay' => contains needle hay'
  end.

Definition is_flash_15 (m : pystr) : bool :=
  contains (lit "flash") (lower m) && contains (lit "1.5") m.

Definition is_pro_15 (m : pystr) : bool :=
  contains (lit "pro") (lower m) && contains (lit "1.5") m.

(** Python truthiness of [chosen_model], which is [None] or a [str]. *)
Definition opt_truthy (o : option pystr) : bool :=
  match o with Some s => truthy s | None => false end.

(** Lines 45-53, on [all_models]; [Some m] is the handle
    [genai.GenerativeModel(m)]. *)
Definition choose_model (all_models : list pystr) : option pystr :=
  let chosen_model := find is_flash_15 all_models in
  let chosen_model :=
    if negb (opt_truthy chosen_model) then find is_pro_15 all_models
    else chosen_model in
  let chosen_model :=
    match all_models with
    | m0 :: _ => if negb (opt_truthy chosen_model) then Some m0 else chosen_model
    | [] => chosen_model
    end in
  if opt_truthy chosen_model then chosen_model else None.

(** Line 42: [all_models], the names of the models that support
    [generateContent], in the order of the listing. *)
Definition available_models (ms : list model_info) : list pystr :=
  map name (filter (fun m => existsb (str_eqb (lit "generateContent"))
                                     (supported_generation_methods m)) ms).

(** [list_models] is the result of [genai.configure] and
    [genai.list_models()]: [None] when either raises (invalid key,
    network). *)
Definition get_gemini_model (list_models : option (list model_info)) : option pystr :=
  match list_models with
  | None => None
  | Some ms => choose_model (available_models ms)
  end.

(** ** extract_text_from_pdf (lines 28-36) *)

Definition bytes := list Byte.byte.

(** [PdfReader] stands for PyPDF2: [None] when [PdfReader(...)] raises, else
    the pages in order, each [Some t] when [page.extract_text()] returns [t]
    and [None] when reading or extracting that page raises. *)
Definition pdf_reader := bytes -> option (list (option pystr)).

(** The loop [for page in reader.pages: text += page.extract_text() + "\n"];
    [None] when a page raises. *)
Fixpoint extract_pages (text : pystr) (pages : list (option pystr)) : option pystr :=
  match pages with
  | [] => Some text
  | None :: _ => None
  | Some t :: pages' => extract_pages (text ++ t ++ [10%N]) pages'
  end.

Definition extract_text_from_pdf (PdfReader : pdf_reader) (file_bytes : bytes) : pystr :=
  match PdfReader file_bytes with
  | None => []
  | Some pages =>
      match extract_pages [] pages with
      | Some text => text
      | None => []
      end
  end.

(** ** generate_csm_summary (lines 105-124) *)

Inductive json :=
| JNull
| JBool (b : bool)
| JNumber (literal : pystr)
| JString (s : pystr)
| JArray (items : list json)
| JObject (members : list (pystr * json)).

(** [s.replace(old, new)] for a non-empty [old]: non-overlapping
    occurrences, left to right; [fuel] is at least the length of [s]. *)
Fixpoint replace_fuel (fuel : nat) (old new s : pystr) : pystr :=
  match fuel with
  | 0 => s
  | S f =>
      match s with
      | [] => []
      | c :: s' =>
          if prefixb old s
          then new ++ replace_fuel f old new (skipn (List.length old) s)
          else c :: replace_fuel f old new s'
      end
  end.

Definition py_replace (old new s : pystr) : pystr :=
  replace_fuel (List.length s) old new s.

(** [response.text.replace(<"```json">, <empty>).replace(<"```">, <empty>).strip()] *)
Definition clean_reply (text : pystr) : pystr :=
  strip (py_replace (lit "```") [] (py_replace (lit "```json") [] text)).

Definition dq : pystr := [34%N].
Definition quoted (s : pystr) : pystr := dq ++ s ++ dq.

Definition summary_prompt (csm_name csv_data : pystr) : pystr :=
  lit "
    You are a Sales Trainer. Summarize performance for CSM: " ++ csm_name ++ lit ".
    Data: " ++ csv_data ++ lit "
    
    **Style:** " ++ quoted (lit "Strengths") ++ lit " and "
  ++ quoted (lit "Areas of Improvement") ++ lit " must use format:
    **Category Name:** Description (citing Customer Names).
    
    **Return JSON:** { " ++ quoted (lit "CSM Name") ++ lit ": " ++ quoted csm_name
  ++ lit ", " ++ quoted (lit "Strengths") ++ lit ": " ++ quoted (lit "...")
  ++ lit ", " ++ quoted (lit "Areas of Improvement") ++ lit ": " ++ quoted (lit "...")
  ++ lit " }
    ".

Definition summary_cols : list pystr :=
  [lit "Customer Name"; lit "Lead Intent"; memo " Brand Detail";
   memo " Value Detail"; lit "Urgency: 6L+2L Offer"].

(** [csm_df[cols]] for one row. *)
Definition select_cols (r : record) : record :=
  map (fun c => (c, match dict_get c r with Some v => v | None => [] end)) summary_cols.

Definition summary_sentinel (csm_name : pystr) : json :=
  JObject [(lit "CSM Name", JString csm_name);
           (lit "Strengths", JString (lit "Error"));
           (lit "Areas of Improvement", JString (lit "Error"))].

(** Lines 106-118: the rows of [csm_name], their five columns as CSV text
    ([to_csv] is pandas' [DataFrame.to_csv(index=False)]), and the prompt.
    The table is taken to have the "CSM Name" column and the five columns,
    as the results table of a run always has: on a table without them
    (an empty one included) lines 106 and 108 raise KeyError, which this
    definition does not model. *)
Definition summary_request (to_csv : list record -> pystr)
    (df : list record) (csm_name : pystr) : pystr :=
  let csm_df := filter (fun r => match dict_get (lit "CSM Name") r with
                                 | Some v => str_eqb v csm_name
                                 | None => false
                                 end) df in
  let csv_data := to_csv (map select_cols csm_df) in
  summary_prompt csm_name csv_data.

(** [json_loads] is [json.loads] ([None] when it raises) and
    [generate_content] the model call. *)
Definition generate_csm_summary (to_csv : list record -> pystr)
    (json_loads : pystr -> option json) (generate_content : pystr -> option pystr)
    (df : list record) (csm_name : pystr) : json :=
  let prompt := summary_request to_csv df csm_name in
  match generate_content prompt with
  | None => summary_sentinel csm_name
  | Some text =>
      match json_loads (clean_reply text) with
      | Some v => v
      | None => summary_sentinel csm_name
      end
  end.

(** ** to_excel (lines 126-147) *)

(** A DataFrame as [to_excel] sees it: its column labels and its rows. *)
Record dataframe := {
  df_columns : list pystr;
  df_rows : list (list pystr)
}.

Record header_style := {
  fill_start_color : pystr;
  fill_end_color : pystr;
  fill_type : pystr;
  font_color : pystr;
  font_bold : bool
}.

(** The parts of an openpyxl worksheet that [to_excel] writes or styles:
    [column_widths] is [ws.column_dimensions[letter].width], [header_cells]
    the style set on the cells [ws["<letter>1"]].  Cell values are not
    modelled. *)
Record worksheet := {
  title : pystr;
  max_column : nat;
  column_widths : list (pystr * nat);
  header_cells : list (pystr * header_style)
}.

(** [df.to_excel(writer, sheet_name=..., index=False)]: a header row and one
    row per record, in columns 1 .. number of labels. *)
Definition write_sheet (sheet_name : pystr) (df : dataframe) : worksheet :=
  {| title := sheet_name; max_column := List.length (df_columns df);
     column_widths := []; header_cells := [] |}.

(** openpyxl's [get_column_letter]: bijective base 26, [fuel] >= [n]. *)
Fixpoint col_letters (fuel n : nat) : pystr :=
  match fuel with
  | 0 => []
  | S f =>
      if n =? 0 then []
      else
        let q := n / 26 in
        let r := n mod 26 in
        if r =? 0 then col_letters f (q - 1) ++ [90%N]
        else col_letters f q ++ [N.of_nat (r + 64)]
  end.

Definition column_letter (n : nat) : pystr := col_letters n n.

(** [PatternFill(start_color="1F497D", end_color="1F497D", fill_type="solid")]
    with [Font(color="FFFFFF", bold=True)]. *)
Definition header_look : header_style :=
  {| fill_start_color := lit "1F497D"; fill_end_color := lit "1F497D";
     fill_type := lit "solid"; font_color := lit "FFFFFF"; font_bold := true |}.

Definition column_width (sheet : pystr) (col_letter : pystr) : nat :=
  if str_eqb sheet (lit "CSM Summary")
     && (str_eqb col_letter (lit "B") || str_eqb col_letter (lit "C"))
  then 80 else 40.

(** One iteration of [for col in ws.columns], for the column numbered [i]. *)
Definition style_column (ws : worksheet) (i : nat) : worksheet :=
  let col_letter := column_letter i in
  let width := column_width (title ws) col_letter in
  {| title := title ws; max_column := max_column ws;
     column_widths := dict_set col_letter width (column_widths ws);
     header_cells := dict_set (col_letter ++ lit "1") header_look (header_cells ws) |}.

(** [ws.columns] runs over the columns 1 .. [ws.max_column] (none on an
    empty sheet). *)
Definition style_sheet (ws : worksheet) : worksheet :=
  fold_left style_column (seq 1 (max_column ws)) ws.

(** [pd.ExcelWriter] on a new openpyxl workbook removes the default sheet,
    so [writer.sheets] holds exactly the sheets written, in order.  The
    result is the workbook; its serialisation to bytes is not modelled. *)
Definition to_excel (df_analysis : dataframe) (df_summary : option dataframe)
  : list worksheet :=
  let sheets :=
    write_sheet (lit "Call Analysis") df_analysis ::
    match df_summary with
    | Some d => [write_sheet (lit "CSM Summary") d]
    | None => []
    end in
  map style_sheet sheets.

(** ** The per-file loop body of the run handler (lines 171-186) *)

Inductive event :=
| Attempt (k : nat)
| Sleep_ms (ms : nat).

(** [for attempt in range(3)]: [generate_content k] is the model call of the
    attempt numbered [k]; [fuel] counts the iterations left. *)
Fixpoint retry_loop (generate_content : nat -> pystr -> option pystr)
    (file_name text : pystr) (attempt fuel : nat) (results : list record)
  : list record * list event :=
  match fuel with
  | 0 => (results, [])
  | S f =>
      match analyze_call (generate_content attempt) text with
      | Some ((_ :: _) as data) =>
          (results ++ [dict_set (lit "File Name") file_name data], [Attempt attempt])
      | _ =>
          let '(results', ev) :=
            retry_loop generate_content file_name text (S attempt) f results in
          (results', Attempt attempt :: Sleep_ms 2000 :: ev)
      end
  end.

Definition process_file (PdfReader : pdf_reader)
    (generate_content : nat -> pystr -> option pystr)
    (file_name : pystr) (file_bytes : bytes) (results : list record)
  : list record * list event :=
  let text := extract_text_from_pdf PdfReader file_bytes in
  let '(results', ev) :=
    if truthy (strip text) then retry_loop generate_content file_name text 0 3 results
    else (results, []) in
  (results', ev ++ [Sleep_ms 1000]).

Definition attempts (ev : list event) : list nat :=
  flat_map (fun e => match e with Attempt k => [k] | Sleep_ms _ => [] end) ev.

(** ** The run handler (lines 160-208) *)

(** The session state of lines 19-22 that the run writes. *)
Record session := {
  analysis_results : option (list record);
  csm_summary : option (list json)
}.

(** The messages of [st.error]: U+274C, then the text. *)
Definition err_no_model : pystr := [10060%N] ++ lit " Invalid API Key or No Model Found.".
Definition err_no_results : pystr := [10060%N] ++ lit " No results could be extracted.".

(** Lines 171-186: the files in upload order; [generate_content idx] is the
    model as called for the file numbered [idx]. *)
Fixpoint analyze_files (PdfReader : pdf_reader)
    (generate_content : nat -> nat -> pystr -> option pystr) (idx : nat)
    (files : list (pystr * bytes)) (results : list record) : list record :=
  match files with
  | [] => results
  | (file_name, file_bytes) :: files' =>
      analyze_files PdfReader generate_content (S idx) files'
        (fst (process_file PdfReader (generate_content idx) file_name file_bytes results))
  end.

(** [analysis_results['CSM Name']]: every record has the key. *)
Definition csm_column (results : list record) : list pystr :=
  map (fun r => match dict_get (lit "CSM Name") r with Some v => v | None => [] end) results.

(** [Series.unique()]: the distinct values in order of first appearance. *)
Fixpoint unique_from (seen : list pystr) (l : list pystr) : list pystr :=
  match l with
  | [] => []
  | x :: l' =>
      if existsb (str_eqb x) seen then unique_from seen l'
      else x :: unique_from (x :: seen) l'
  end.

Definition unique (l : list pystr) : list pystr := unique_from [] l.

(** Lines 197-201: one summary per name, the call numbered [i] going to
    [generate_content i]. *)
Fixpoint summarize_all (to_csv : list record -> pystr)
    (json_loads : pystr -> option json) (generate_content : nat -> pystr -> option pystr)
    (i : nat) (df : list record) (csms : list pystr) : list json :=
  match csms with
  | [] => []
  | csm :: csms' =>
      generate_csm_summary to_csv json_loads (generate_content i) df csm
      :: summarize_all to_csv json_loads generate_content (S i) df csms'
  end.

(** Lines 160-208 after the button press: [list_models] feeds
    get_gemini_model; the result is the new session and the errors shown.
    pd.DataFrame(summaries) at line 203 is taken to succeed, as it does
    when every summary is a JSON object; when the first is an object and a
    later one is not, it raises after line 189 has stored the results, a
    case this definition does not model. *)
Definition run_analysis (list_models : option (list model_info)) (PdfReader : pdf_reader)
    (analysis_model : nat -> nat -> pystr -> option pystr)
    (summary_model : nat -> pystr -> option pystr)
    (json_loads : pystr -> option json) (to_csv : list record -> pystr)
    (files : list (pystr * bytes)) (st : session) : session * list pystr :=
  match get_gemini_model list_models with
  | None => (st, [err_no_model])
  | Some _ =>
      let results := analyze_files PdfReader analysis_model 0 files [] in
      match results with
      | [] => (st, [err_no_results])
      | _ =>
          let unique_csms := unique (csm_column results) in
          ({| analysis_results := Some results;
              csm_summary := Some (summarize_all to_csv json_loads summary_model 0
                                     results unique_csms) |}, [])
      end
  end.

(** [('###').join(segments)] *)
Fixpoint join3 (segments : list pystr) : pystr :=
  match segments with
  | [] => []
  | [s] => s
  | s :: rest => s ++ [35; 35; 35]%N ++ join3 rest
  end.

(** Total pause of an event trace, in milliseconds. *)
Definition total_sleep (ev : list event) : nat :=
  fold_right (fun e acc => match e with Sleep_ms ms => ms + acc | Attempt _ => acc end) 0 ev.

(** ** Properties used in the statements *)

(** A string that neither begins nor ends with a whitespace character. *)
Definition no_edge_space (v : pystr) : bool :=
  match v with
  | [] => true
  | c :: _ => negb (is_space c) && negb (is_space (last v 0%N))
  end.

(** Column [j] of [ws] has the width of the policy and the header style. *)
Definition column_styled (ws : worksheet) (j : nat) : Prop :=
  dict_get (column_letter j) (column_widths ws) =
    Some (column_width (title ws) (column_letter j)) /\
  dict_get (column_letter j ++ lit "1") (header_cells ws) = Some header_look.

(** [l1] keeps some elements of [l2], in their order. *)
Inductive subseq {A : Type} : list A -> list A -> Prop :=
| subseq_nil : subseq [] []
| subseq_skip (x : A) (l1 l2 : list A) : subseq l1 l2 -> subseq l1 (x :: l2)
| subseq_take (x : A) (l1 l2 : list A) : subseq l1 l2 -> subseq (x :: l1) (x :: l2).

(** Inputs used by the examples. *)

Definition reply_18 : pystr :=
  lit "a###b###c###d###e###f###g###h###i###j###k###l###m###n###o###p###q###r".

Definition model_named (n : pystr) : model_info :=
  {| name := n; supported_generation_methods := [lit "generateContent"] |}.

Definition spec_models : list model_info :=
  map model_named (map lit ["models/gemini-1.0-pro"; "models/gemini-1.5-flash-001";
                            "models/gemini-1.5-pro-002"]%string).

Definition pdf_one_page : pdf_reader := fun _ => Some [Some (lit "Call transcript")].

(** The model call fails on attempts 0 and 1 and answers on attempt 2. *)
Definition flaky_model (k : nat) (_ : pystr) : option pystr :=
  if k <? 2 then None else Some (lit "Asha###Ravi###Mixed").

(** * Proofs *)

(** ** Strings *)

Lemma lstrip_prefix (s : pystr) : exists p, s = p ++ lstrip s.
Proof.
  induction s as [|c s IH]; simpl.
  - exists []. reflexivity.
  - destruct (is_space c).
    + destruct IH as [p Hp]. exists (c :: p). simpl. congruence.
    + exists []. reflexivity.
Qed.

Lemma lstrip_head (s : pystr) :
  match lstrip s with [] => True | c :: _ => is_space c = false end.
Proof.
  induction s as [|c s IH]; simpl; [exact I|].
  destruct (is_space c) eqn:E; [exact IH|exact E].
Qed.

Lemma lstrip_app (a b : pystr) :
  lstrip (a ++ b) = match lstrip a with [] => lstrip b | _ => lstrip a ++ b end.
Proof.
  induction a as [|c a IH]; simpl; [reflexivity|].
  destruct (is_space c); [exact IH|reflexivity].
Qed.

Lemma rstrip_prefix (v : pystr) : exists w, v = rstrip v ++ w.
Proof.
  destruct (lstrip_prefix (rev v)) as [p Hp].
  exists (rev p). unfold rstrip.
  rewrite <- rev_app_distr, <- Hp, rev_involutive. reflexivity.
Qed.

Lemma rstrip_app (v s : pystr) : exists z, rstrip (v ++ s) = rstrip v ++ z.
Proof.
  unfold rstrip. rewrite rev_app_distr, lstrip_app.
  destruct (lstrip (rev s)) as [|c t] eqn:E.
  - exists []. rewrite app_nil_r. reflexivity.
  - rewrite rev_app_distr, rev_involutive.
    destruct (rstrip_prefix v) as [w Hw].
    exists (w ++ rev (c :: t)). unfold rstrip in Hw.
    rewrite app_assoc, <- Hw. reflexivity.
Qed.

Lemma strip_app (r s : pystr) :
  strip r <> [] -> exists z, strip (r ++ s) = strip r ++ z.
Proof.
  unfold strip. intros H.
  rewrite lstrip_app.
  destruct (lstrip r) as [|c t] eqn:E.
  - exfalso. apply H. reflexivity.
  - apply rstrip_app.
Qed.

Lemma strip_no_edge_space (s : pystr) : no_edge_space (strip s) = true.
Proof.
  unfold strip, rstrip.
  pose proof (lstrip_head s) as Hy.
  pose proof (lstrip_head (rev (lstrip s))) as Hz.
  destruct (lstrip_prefix (rev (lstrip s))) as [p Hp].
  remember (lstrip s) as y eqn:Ey.
  remember (lstrip (rev y)) as z eqn:Ez.
  destruct z as [|d z']; [reflexivity|].
  assert (Hy' : y = rev (d :: z') ++ rev p).
  { rewrite <- rev_app_distr, <- Hp, rev_involutive. reflexivity. }
  simpl rev in *.
  destruct (rev z' ++ [d]) as [|c t] eqn:Ec.
  - destruct (rev z'); discriminate.
  - unfold no_edge_space. rewrite <- Ec, last_last, Hz.
    rewrite Hy' in Hy. simpl in Hy. rewrite Hy. reflexivity.
Qed.

Lemma split3_cons3 cur c1 c2 c3 rest :
  split3 cur (c1 :: c2 :: c3 :: rest) =
  if is_hash c1 && is_hash c2 && is_hash c3
  then rev cur :: split3 [] rest
  else split3 (c1 :: cur) (c2 :: c3 :: rest).
Proof. reflexivity. Qed.

(** Appending text after a reply with at least [n + 1] segments leaves its
    first [n] segments as they were. *)
Lemma split3_app : forall k s cur u n,
  List.length s <= k -> n < List.length (split3 cur s) ->
  firstn n (split3 cur (s ++ u)) = firstn n (split3 cur s).
Proof.
  induction k as [|k IH]; intros s cur u n Hk Hn.
  - destruct s; [|simpl in Hk; lia].
    simpl in Hn. assert (n = 0) by lia. subst. reflexivity.
  - destruct s as [|c1 [|c2 [|c3 rest]]].
    + simpl in Hn. assert (n = 0) by lia. subst. reflexivity.
    + simpl in Hn. assert (n = 0) by lia. subst. reflexivity.
    + simpl in Hn. assert (n = 0) by lia. subst. reflexivity.
    + cbn [app]. rewrite !split3_cons3 in *. simpl in Hk.
      destruct (is_hash c1 && is_hash c2 && is_hash c3).
      * destruct n as [|n]; [reflexivity|]. cbn [List.length] in Hn. cbn [firstn].
        f_equal. apply IH; [lia|]. lia.
      * change (c2 :: c3 :: rest ++ u) with ((c2 :: c3 :: rest) ++ u).
        apply IH; [simpl; lia|exact Hn].
Qed.


(** ** The record built by analyze_call *)

Lemma build_record_keys (parts : list pystr) :
  map fst (build_record parts) = analysis_keys.
Proof. reflexivity. Qed.

Lemma build_record_values (parts : list pystr) :
  map snd (build_record parts) = map (fun i => nth i parts []) (seq 0 17).
Proof. reflexivity. Qed.

Lemma build_record_nth (parts : list pystr) (i : nat) :
  i < 17 -> nth i (map snd (build_record parts)) [] = nth i parts [].
Proof. intros Hi. do 17 (destruct i as [|i]; [reflexivity|]). lia. Qed.

Lemma length_pad17 (parts : list pystr) : 17 <= List.length (pad17 parts).
Proof. unfold pad17. rewrite length_app, repeat_length. lia. Qed.

Lemma nth_pad17 (parts : list pystr) (i : nat) :
  i < 17 ->
  nth i (pad17 parts) [] =
  if i <? List.length parts then nth i parts [] else lit "-".
Proof.
  intros Hi. unfold pad17.
  destruct (Nat.ltb_spec i (List.length parts)) as [Hlt|Hge].
  - apply app_nth1. exact Hlt.
  - rewrite app_nth2 by exact Hge.
    rewrite nth_indep with (d' := lit "-") by (rewrite repeat_length; lia).
    apply nth_repeat.
Qed.

Lemma build_pad_firstn (parts : list pystr) :
  17 <= List.length parts ->
  build_record (pad17 parts) = combine analysis_keys (firstn 17 parts).
Proof.
  intros H. unfold pad17.
  replace (17 - List.length parts) with 0 by lia. rewrite app_nil_r.
  do 17 (destruct parts as [|? parts]; [simpl in H; lia|]).
  reflexivity.
Qed.

Lemma analyze_call_reply (generate_content : pystr -> option pystr) (text reply : pystr) :
  generate_content (analyze_prompt text) = Some reply ->
  analyze_call generate_content text = Some (build_record (pad17 (reply_parts reply))).
Proof. intros H. unfold analyze_call. rewrite H. reflexivity. Qed.

Lemma reply_parts_app (reply extra : pystr) :
  17 < List.length (reply_parts reply) ->
  firstn 17 (reply_parts (reply ++ extra)) = firstn 17 (reply_parts reply).
Proof.
  unfold reply_parts. rewrite length_map. intros H.
  assert (Hne : strip reply <> []).
  { intros E. rewrite E in H. simpl in H. lia. }
  destruct (strip_app reply extra Hne) as [z Hz]. rewrite Hz.
  rewrite !firstn_map. f_equal.
  apply split3_app with (k := List.length (strip reply)); [lia|exact H].
Qed.

(** ** Claims on analyze_call *)

(** C1: when the reply splits on '###' into fewer than 17 segments (an empty
    reply gives one empty segment), analyze_call returns a record with all 17
    keys; key [i] holds segment [i], stripped, while there is one, and "-"
    after the last segment. *)
Theorem analyze_call_pads_short_reply (generate_content : pystr -> option pystr)
    (text reply : pystr) :
  generate_content (analyze_prompt text) = Some reply ->
  List.length (reply_parts reply) < 17 ->
  exists m, analyze_call generate_content text = Some m /\
    map fst m = analysis_keys /\
    forall i, i < 17 ->
      nth i (map snd m) [] =
      if i <? List.length (reply_parts reply) then nth i (reply_parts reply) []
      else lit "-".
Proof.
  intros Hgen _.
  exists (build_record (pad17 (reply_parts reply))).
  split; [apply analyze_call_reply; exact Hgen|].
  split; [apply build_record_keys|].
  intros i Hi. rewrite build_record_nth by exact Hi. apply nth_pad17. exact Hi.
Qed.

(** A reply of ten segments: keys 11 to 17 get "-". *)
Lemma analyze_call_pads_short_reply_witness :
  List.length (reply_parts (lit "a###b###c###d###e###f###g###h###i###j")) = 10 /\
  exists m, analyze_call (fun _ => Some (lit "a###b###c###d###e###f###g###h###i###j")) [] = Some m /\
    map fst m = analysis_keys /\
    forall i, i < 17 ->
      nth i (map snd m) [] =
      if i <? List.length (reply_parts (lit "a###b###c###d###e###f###g###h###i###j"))
      then nth i (reply_parts (lit "a###b###c###d###e###f###g###h###i###j")) []
      else lit "-".
Proof.
  split; [reflexivity|].
  apply (analyze_call_pads_short_reply
           (fun _ => Some (lit "a###b###c###d###e###f###g###h###i###j")) []
           (lit "a###b###c###d###e###f###g###h###i###j")).
  - reflexivity.
  - simpl. lia.
Defined.

(** C2: when the reply splits into more than 17 segments, the record pairs
    the 17 keys with the first 17 segments, stripped; appending any text to
    the reply (more delimiters or segments) leaves the record unchanged. *)
Theorem analyze_call_first_17_segments (generate_content : pystr -> option pystr)
    (text reply : pystr) :
  generate_content (analyze_prompt text) = Some reply ->
  17 < List.length (reply_parts reply) ->
  analyze_call generate_content text =
    Some (combine analysis_keys (firstn 17 (reply_parts reply))) /\
  forall (generate_content' : pystr -> option pystr) (extra : pystr),
    generate_content' (analyze_prompt text) = Some (reply ++ extra) ->
    analyze_call generate_content' text = analyze_call generate_content text.
Proof.
  intros Hgen Hlong.
  assert (Hm : analyze_call generate_content text =
               Some (combine analysis_keys (firstn 17 (reply_parts reply)))).
  { rewrite (analyze_call_reply _ _ _ Hgen). f_equal. apply build_pad_firstn. lia. }
  split; [exact Hm|].
  intros gen' extra Hgen'.
  rewrite Hm, (analyze_call_reply _ _ _ Hgen').
  pose proof (reply_parts_app reply extra Hlong) as Hf.
  assert (Hlen : 17 <= List.length (reply_parts (reply ++ extra))).
  { pose proof (length_firstn 17 (reply_parts (reply ++ extra))) as L1.
    pose proof (length_firstn 17 (reply_parts reply)) as L2.
    rewrite Hf in L1. lia. }
  rewrite build_pad_firstn by exact Hlen. rewrite Hf. reflexivity.
Qed.

Lemma analyze_call_first_17_segments_witness :
  List.length (reply_parts reply_18) = 18 /\
  analyze_call (fun _ => Some reply_18) [] =
    Some (combine analysis_keys (firstn 17 (reply_parts reply_18))) /\
  forall (generate_content' : pystr -> option pystr) (extra : pystr),
    generate_content' (analyze_prompt []) = Some (reply_18 ++ extra) ->
    analyze_call generate_content' [] = analyze_call (fun _ => Some reply_18) [].
Proof.
  split; [reflexivity|].
  apply (analyze_call_first_17_segments (fun _ => Some reply_18) [] reply_18).
  - reflexivity.
  - vm_compute. lia.
Defined.

(** C6: analyze_call returns no record exactly when the model call raises,
    and every record it returns carries all 17 keys. *)
Theorem analyze_call_failure_is_total (generate_content : pystr -> option pystr)
    (text : pystr) :
  (analyze_call generate_content text = None <->
   generate_content (analyze_prompt text) = None) /\
  (forall m, analyze_call generate_content text = Some m -> map fst m = analysis_keys).
Proof.
  unfold analyze_call.
  destruct (generate_content (analyze_prompt text)) as [reply|].
  - split; [split; discriminate|].
    intros m Hm. injection Hm as <-. apply build_record_keys.
  - split; [tauto|]. discriminate.
Qed.

(** C10: no value of a record returned by analyze_call begins or ends with a
    whitespace character. *)
Theorem analyze_call_values_stripped (generate_content : pystr -> option pystr)
    (text : pystr) :
  match analyze_call generate_content text with
  | Some m => forall v, In v (map snd m) -> no_edge_space v = true
  | None => True
  end.
Proof.
  unfold analyze_call.
  destruct (generate_content (analyze_prompt text)) as [reply|]; [|exact I].
  rewrite build_record_values. intros v Hv.
  apply in_map_iff in Hv. destruct Hv as [i [<- Hi]].
  apply in_seq in Hi.
  set (parts := map strip (split_hash3 (strip reply))).
  assert (Hin : In (nth i (pad17 parts) []) (pad17 parts)).
  { apply nth_In. pose proof (length_pad17 parts). lia. }
  revert Hin. generalize (nth i (pad17 parts) []) as v. intros v Hin.
  unfold pad17 in Hin. apply in_app_or in Hin. destruct Hin as [Hin|Hin].
  - unfold parts in Hin. apply in_map_iff in Hin. destruct Hin as [x [Hx _]].
    rewrite <- Hx. apply strip_no_edge_space.
  - apply repeat_spec in Hin. rewrite Hin. reflexivity.
Qed.

(** ** Claims on get_gemini_model *)

Lemma is_flash_15_nonempty (m : pystr) : is_flash_15 m = true -> truthy m = true.
Proof.
  unfold is_flash_15. destruct m; [|reflexivity].
  rewrite andb_comm. simpl. discriminate.
Qed.

Lemma is_pro_15_nonempty (m : pystr) : is_pro_15 m = true -> truthy m = true.
Proof.
  unfold is_pro_15. destruct m; [|reflexivity].
  rewrite andb_comm. simpl. discriminate.
Qed.

(** The selection the spec describes, read on [all_models]: an identifier
    with "flash" (any case) and "1.5", else one with "pro" (any case) and
    "1.5", else the first identifier. *)
Lemma choose_model_cases (all_models : list pystr) :
  choose_model all_models =
    match find is_flash_15 all_models with
    | Some m => Some m
    | None =>
        match find is_pro_15 all_models with
        | Some m => Some m
        | None =>
            match all_models with
            | m :: _ => if truthy m then Some m else None
            | [] => None
            end
        end
    end.
Proof.
  unfold choose_model.
  destruct (find is_flash_15 all_models) as [m|] eqn:F.
  - apply find_some in F. destruct F as [_ F].
    apply is_flash_15_nonempty in F. simpl. rewrite F.
    destruct all_models; repeat (simpl; rewrite ?F); reflexivity.
  - simpl. destruct (find is_pro_15 all_models) as [m|] eqn:P.
    + apply find_some in P. destruct P as [_ P].
      apply is_pro_15_nonempty in P. simpl. rewrite P.
      destruct all_models; repeat (simpl; rewrite ?P); reflexivity.
    + destruct all_models as [|m0 rest]; [reflexivity|].
      simpl. destruct (truthy m0); reflexivity.
Qed.

(** C3: on a listing whose model names are non-empty (the API names its
    models "models/..."), the model is chosen among the identifiers that
    support content generation: first one with "flash" (any case) and
    "1.5", else one with "pro" (any case) and "1.5", else the first
    identifier.  There is no model exactly when the listing fails or when
    no listed model supports content generation. *)
Theorem get_gemini_model_priority (ms : list model_info) :
  Forall (fun mi => truthy (name mi) = true) ms ->
  get_gemini_model None = None /\
  get_gemini_model (Some ms) =
    match find is_flash_15 (available_models ms) with
    | Some m => Some m
    | None =>
        match find is_pro_15 (available_models ms) with
        | Some m => Some m
        | None => hd_error (available_models ms)
        end
    end /\
  (get_gemini_model (Some ms) = None <-> available_models ms = []).
Proof.
  intros H. split; [reflexivity|].
  assert (T : forall m, In m (available_models ms) -> truthy m = true).
  { intros m Hm. unfold available_models in Hm. apply in_map_iff in Hm.
    destruct Hm as [mi [<- Hf]]. apply filter_In in Hf.
    rewrite Forall_forall in H. apply H, Hf. }
  unfold get_gemini_model. rewrite choose_model_cases. revert T.
  destruct (find is_flash_15 (available_models ms)) as [m|] eqn:F.
  { intros _. split; [reflexivity|]. split; [discriminate|].
    intros E. rewrite E in F. discriminate F. }
  destruct (find is_pro_15 (available_models ms)) as [m|] eqn:P.
  { intros _. split; [reflexivity|]. split; [discriminate|].
    intros E. rewrite E in P. discriminate P. }
  destruct (available_models ms) as [|m0 rest]; intros T; cbn [hd_error].
  - split; [reflexivity|tauto].
  - rewrite (T m0 (or_introl eq_refl)). split; [reflexivity|]. split; discriminate.
Qed.

Lemma get_gemini_model_priority_witness :
  get_gemini_model None = None /\
  get_gemini_model (Some spec_models) =
    match find is_flash_15 (available_models spec_models) with
    | Some m => Some m
    | None =>
        match find is_pro_15 (available_models spec_models) with
        | Some m => Some m
        | None => hd_error (available_models spec_models)
        end
    end /\
  (get_gemini_model (Some spec_models) = None <-> available_models spec_models = []).
Proof. apply get_gemini_model_priority. repeat constructor. Defined.

(** The example of the spec: the "flash" 1.5 model is preferred. *)
Example get_gemini_model_example :
  get_gemini_model (Some (map model_named
    (map lit ["models/gemini-1.0-pro"; "models/gemini-1.5-flash-001";
              "models/gemini-1.5-pro-002"]%string))) =
  Some (lit "models/gemini-1.5-flash-001").
Proof. reflexivity. Qed.

(** ** Claims on extract_text_from_pdf *)

Lemma extract_pages_failing_page (pages : list (option pystr)) :
  In None pages -> forall text, extract_pages text pages = None.
Proof.
  induction pages as [|p pages IH]; intros Hin text; [destruct Hin|].
  destruct Hin as [Hp|Hin]; [subst p; reflexivity|].
  destruct p; simpl; [apply IH; exact Hin|reflexivity].
Qed.

Lemma extract_pages_all (texts : list pystr) (acc : pystr) :
  extract_pages acc (map Some texts) =
  Some (acc ++ List.concat (map (fun t => t ++ [10%N]) texts)).
Proof.
  revert acc. induction texts as [|t texts IH]; intros acc; simpl.
  - rewrite app_nil_r. reflexivity.
  - rewrite IH, !app_assoc. reflexivity.
Qed.

Lemma concat_adjacent_pages (texts : list pystr) (i : nat) (a c : pystr) :
  nth_error texts i = Some a -> nth_error texts (S i) = Some c ->
  exists p q, List.concat (map (fun t => t ++ [10%N]) texts) =
              p ++ a ++ [10%N] ++ c ++ [10%N] ++ q.
Proof.
  revert i. induction texts as [|t texts IH]; intros i Ha Hc;
    [destruct i; discriminate|].
  destruct i as [|i].
  - simpl in Ha, Hc. injection Ha as ->.
    destruct texts as [|t' texts]; [discriminate|]. injection Hc as ->.
    exists [], (List.concat (map (fun t => t ++ [10%N]) texts)).
    simpl. rewrite <- !app_assoc. reflexivity.
  - simpl in Ha, Hc. destruct (IH i Ha Hc) as [p [q Hpq]].
    exists ((t ++ [10%N]) ++ p), q. simpl. rewrite Hpq, <- !app_assoc. reflexivity.
Qed.

(** C4: when PyPDF2 cannot read the bytes as a PDF, or reading or
    extracting some page raises, extract_text_from_pdf returns the empty
    string (and the result is a string: no exception leaves the function). *)
Theorem extract_text_from_pdf_failure (PdfReader : pdf_reader) (file_bytes : bytes) :
  (PdfReader file_bytes = None \/
   exists pages, PdfReader file_bytes = Some pages /\ In None pages) ->
  extract_text_from_pdf PdfReader file_bytes = [].
Proof.
  unfold extract_text_from_pdf. intros [H|[pages [H Hin]]]; rewrite H; [reflexivity|].
  rewrite (extract_pages_failing_page pages Hin). reflexivity.
Qed.

(** A document whose second page fails after the first one was read. *)
Lemma extract_text_from_pdf_failure_witness :
  extract_text_from_pdf (fun _ => Some [Some (lit "page one"); None]) [] = [].
Proof.
  apply extract_text_from_pdf_failure. right.
  exists [Some (lit "page one"); None]. split; [reflexivity|simpl; tauto].
Defined.

(** C5: when every page is extracted, the text is the pages' texts in page
    order, each followed by a newline; it is not empty, and the text of each
    page comes right before the text of the next one. *)
Theorem extract_text_from_pdf_pages (PdfReader : pdf_reader) (file_bytes : bytes)
    (texts : list pystr) :
  PdfReader file_bytes = Some (map Some texts) -> texts <> [] ->
  extract_text_from_pdf PdfReader file_bytes = List.concat (map (fun t => t ++ [10%N]) texts) /\
  extract_text_from_pdf PdfReader file_bytes <> [] /\
  (forall i a c, nth_error texts i = Some a -> nth_error texts (S i) = Some c ->
   exists p q, extract_text_from_pdf PdfReader file_bytes =
               p ++ a ++ [10%N] ++ c ++ [10%N] ++ q).
Proof.
  intros H Hne.
  assert (E : extract_text_from_pdf PdfReader file_bytes =
              List.concat (map (fun t => t ++ [10%N]) texts)).
  { unfold extract_text_from_pdf. rewrite H, extract_pages_all. reflexivity. }
  rewrite E. split; [reflexivity|]. split.
  - destruct texts as [|t texts]; [contradiction|]. simpl.
    destruct t; discriminate.
  - apply concat_adjacent_pages.
Qed.

Lemma extract_text_from_pdf_pages_witness :
  extract_text_from_pdf (fun _ => Some [Some (lit "one"); Some (lit "two")]) [] =
    List.concat (map (fun t => t ++ [10%N]) [lit "one"; lit "two"]) /\
  extract_text_from_pdf (fun _ => Some [Some (lit "one"); Some (lit "two")]) [] <> [] /\
  (forall i a c, nth_error [lit "one"; lit "two"] i = Some a ->
   nth_error [lit "one"; lit "two"] (S i) = Some c ->
   exists p q, extract_text_from_pdf (fun _ => Some [Some (lit "one"); Some (lit "two")]) [] =
               p ++ a ++ [10%N] ++ c ++ [10%N] ++ q).
Proof.
  apply (extract_text_from_pdf_pages (fun _ => Some [Some (lit "one"); Some (lit "two")])
           [] [lit "one"; lit "two"]); [reflexivity|discriminate].
Defined.

(** ** Claim on generate_csm_summary *)

(** C7: when the reply, once the fence markers are removed and the text
    stripped, parses as JSON, generate_csm_summary returns the parsed value;
    when the model call raises or the text does not parse, it returns the
    record {"CSM Name": csm_name, "Strengths": "Error",
    "Areas of Improvement": "Error"}.  The result is a value in every case:
    no exception leaves the function. *)
Theorem generate_csm_summary_outcome (to_csv : list record -> pystr)
    (json_loads : pystr -> option json) (generate_content : pystr -> option pystr)
    (df : list record) (csm_name : pystr) :
  (forall text v,
     generate_content (summary_request to_csv df csm_name) = Some text ->
     json_loads (clean_reply text) = Some v ->
     generate_csm_summary to_csv json_loads generate_content df csm_name = v) /\
  ((generate_content (summary_request to_csv df csm_name) = None \/
    exists text, generate_content (summary_request to_csv df csm_name) = Some text /\
                 json_loads (clean_reply text) = None) ->
   generate_csm_summary to_csv json_loads generate_content df csm_name =
   JObject [(lit "CSM Name", JString csm_name);
            (lit "Strengths", JString (lit "Error"));
            (lit "Areas of Improvement", JString (lit "Error"))]).
Proof.
  unfold generate_csm_summary. split.
  - intros text v Hg Hj. rewrite Hg, Hj. reflexivity.
  - intros [Hg|[text [Hg Hj]]]; rewrite Hg; [reflexivity|]. rewrite Hj. reflexivity.
Qed.

(** The fence markers and the surrounding blank space are removed. *)
Example clean_reply_fenced :
  clean_reply (lit "```json" ++ [10%N] ++ lit "{}" ++ [10%N] ++ lit "```") = lit "{}".
Proof. reflexivity. Qed.

(** ** Claim on to_excel *)

Lemma dict_get_set {A} (k k' : pystr) (v : A) (d : list (pystr * A)) :
  dict_get k (dict_set k' v d) =
  if list_eq_dec N.eq_dec k k' then Some v else dict_get k d.
Proof.
  induction d as [|[k'' v'] d IH]; simpl.
  - reflexivity.
  - destruct (list_eq_dec N.eq_dec k' k'') as [E|E]; simpl.
    + subst k''. destruct (list_eq_dec N.eq_dec k k'); reflexivity.
    + rewrite IH.
      destruct (list_eq_dec N.eq_dec k k'') as [E1|E1];
      destruct (list_eq_dec N.eq_dec k k') as [E2|E2]; try reflexivity.
      subst. contradiction.
Qed.

Lemma col_letters_S (f n : nat) :
  col_letters (S f) n =
  if n =? 0 then []
  else if n mod 26 =? 0 then col_letters f (n / 26 - 1) ++ [90%N]
  else col_letters f (n / 26) ++ [N.of_nat (n mod 26 + 64)].
Proof. reflexivity. Qed.

Lemma col_letters_nonempty (fuel n : nat) :
  1 <= n <= fuel -> col_letters fuel n <> [].
Proof.
  intros H. destruct fuel as [|f]; [lia|].
  rewrite col_letters_S. destruct (Nat.eqb_spec n 0); [lia|].
  destruct (n mod 26 =? 0); intros E; apply app_eq_nil in E; destruct E; discriminate.
Qed.

Lemma col_letters_long (fuel n : nat) :
  27 <= n <= fuel -> 2 <= List.length (col_letters fuel n).
Proof.
  intros H. destruct fuel as [|f]; [lia|].
  rewrite col_letters_S. destruct (Nat.eqb_spec n 0); [lia|].
  pose proof (Nat.div_mod_eq n 26) as Hd.
  pose proof (Nat.mod_upper_bound n 26 ltac:(lia)) as Hr.
  destruct (Nat.eqb_spec (n mod 26) 0) as [R|R];
    rewrite length_app; cbn [List.length].
  - assert (1 <= List.length (col_letters f (n / 26 - 1))); [|lia].
    destruct (col_letters f (n / 26 - 1)) eqn:E; [|simpl; lia].
    exfalso. revert E. apply col_letters_nonempty. lia.
  - assert (1 <= List.length (col_letters f (n / 26))); [|lia].
    destruct (col_letters f (n / 26)) eqn:E; [|simpl; lia].
    exfalso. revert E. apply col_letters_nonempty. lia.
Qed.

Lemma str_eqb_length (a b : pystr) :
  List.length a <> List.length b -> str_eqb a b = false.
Proof.
  unfold str_eqb. destruct (list_eq_dec N.eq_dec a b) as [E|E]; [|reflexivity].
  intros H. subst. contradiction.
Qed.

(** Only the columns 2 and 3 are lettered B and C. *)
Lemma column_letter_B_C (i : nat) :
  1 <= i ->
  (str_eqb (column_letter i) (lit "B") || str_eqb (column_letter i) (lit "C")) =
  ((i =? 2) || (i =? 3)).
Proof.
  intros Hi. destruct (Nat.le_gt_cases i 26) as [Hs|Hl].
  - do 27 (destruct i as [|i]; [reflexivity|]). lia.
  - pose proof (col_letters_long i i ltac:(lia)) as L. unfold column_letter.
    rewrite !str_eqb_length by (simpl; lia).
    destruct (Nat.eqb_spec i 2), (Nat.eqb_spec i 3); try lia; reflexivity.
Qed.

Lemma style_column_new (ws : worksheet) (j : nat) :
  column_styled (style_column ws j) j.
Proof.
  unfold column_styled, style_column.
  cbn [column_widths header_cells title]. rewrite !dict_get_set.
  split; (destruct (list_eq_dec N.eq_dec _ _) as [_|E]; [reflexivity|contradiction]).
Qed.

Lemma style_column_keeps (ws : worksheet) (a j : nat) :
  column_styled ws j -> column_styled (style_column ws a) j.
Proof.
  unfold column_styled, style_column.
  cbn [column_widths header_cells title]. intros [Hw Hh].
  rewrite !dict_get_set.
  destruct (list_eq_dec N.eq_dec (column_letter j) (column_letter a)) as [E|E].
  - rewrite E. split; [reflexivity|].
    destruct (list_eq_dec N.eq_dec _ _); [reflexivity|]. rewrite <- E. exact Hh.
  - split; [exact Hw|].
    destruct (list_eq_dec N.eq_dec _ _); [reflexivity|exact Hh].
Qed.

Lemma fold_style_frame (l : list nat) (ws : worksheet) :
  title (fold_left style_column l ws) = title ws /\
  max_column (fold_left style_column l ws) = max_column ws.
Proof.
  revert ws. induction l as [|a l IH]; intros ws; simpl; [split; reflexivity|].
  destruct (IH (style_column ws a)) as [H1 H2]. rewrite H1, H2. split; reflexivity.
Qed.

Lemma fold_style_columns (l : list nat) (ws : worksheet) (j : nat) :
  In j l \/ column_styled ws j -> column_styled (fold_left style_column l ws) j.
Proof.
  revert ws. induction l as [|a l IH]; intros ws H; simpl.
  - destruct H as [[]|H]; exact H.
  - apply IH. destruct H as [[<-|H]|H].
    + right. apply style_column_new.
    + left. exact H.
    + right. apply style_column_keeps. exact H.
Qed.

Lemma column_width_index (t : pystr) (i : nat) :
  1 <= i ->
  column_width t (column_letter i) =
  if str_eqb t (lit "CSM Summary") && ((i =? 2) || (i =? 3)) then 80 else 40.
Proof. intros Hi. unfold column_width. rewrite column_letter_B_C by exact Hi. reflexivity. Qed.

(** C8: the workbook has the sheet "Call Analysis" alone when there is no
    summary, and "Call Analysis" then "CSM Summary" when there is one.  On
    every sheet, every written column (1 to the number of columns) gets width
    80 if the sheet is "CSM Summary" and the column is B or C (columns 2 and
    3), and 40 otherwise, and its header cell gets the solid 1F497D fill with
    a bold FFFFFF font. *)
Theorem to_excel_layout (df_analysis : dataframe) (df_summary : option dataframe) :
  column_letter 2 = lit "B" /\ column_letter 3 = lit "C" /\
  map title (to_excel df_analysis df_summary) =
    match df_summary with
    | None => [lit "Call Analysis"]
    | Some _ => [lit "Call Analysis"; lit "CSM Summary"]
    end /\
  (forall ws, In ws (to_excel df_analysis df_summary) ->
   forall i, 1 <= i <= max_column ws ->
     dict_get (column_letter i) (column_widths ws) =
       Some (if str_eqb (title ws) (lit "CSM Summary") && ((i =? 2) || (i =? 3))
             then 80 else 40) /\
     dict_get (column_letter i ++ lit "1") (header_cells ws) = Some header_look).
Proof.
  split; [reflexivity|]. split; [reflexivity|]. split.
  - unfold to_excel. rewrite map_map.
    destruct df_summary; simpl; unfold style_sheet;
      rewrite !(proj1 (fold_style_frame _ _)); reflexivity.
  - intros ws Hws i Hi. unfold to_excel in Hws.
    apply in_map_iff in Hws. destruct Hws as [w0 [<- _]].
    unfold style_sheet in *.
    destruct (fold_style_frame (seq 1 (max_column w0)) w0) as [Ht Hm].
    rewrite Hm in Hi.
    destruct (fold_style_columns (seq 1 (max_column w0)) w0 i) as [Hw Hh].
    { left. apply in_seq. lia. }
    split; [|exact Hh].
    rewrite Hw, Ht, column_width_index by lia. reflexivity.
Qed.

(** ** Claim on the retry loop *)

Lemma analyze_call_nonempty (generate_content : pystr -> option pystr) (text : pystr)
    (m : record) :
  analyze_call generate_content text = Some m -> m <> [].
Proof.
  unfold analyze_call. destruct (generate_content (analyze_prompt text)); [|discriminate].
  intros H. injection H as <-. discriminate.
Qed.

Lemma dict_get_set_same {A} (k : pystr) (v : A) (d : list (pystr * A)) :
  dict_get k (dict_set k v d) = Some v.
Proof.
  rewrite dict_get_set. destruct (list_eq_dec N.eq_dec k k); [reflexivity|contradiction].
Qed.

Lemma retry_loop_spec (generate_content : nat -> pystr -> option pystr)
    (file_name text : pystr) :
  forall fuel attempt results,
  let '(results', ev) := retry_loop generate_content file_name text attempt fuel results in
  List.length (attempts ev) <= fuel /\
  attempts ev = seq attempt (List.length (attempts ev)) /\
  (1 <= fuel -> 1 <= List.length (attempts ev)) /\
  ((forall k, In k (attempts ev) -> analyze_call (generate_content k) text = None) ->
   results' = results) /\
  (forall k, In k (attempts ev) -> analyze_call (generate_content k) text <> None ->
   exists data, analyze_call (generate_content k) text = Some data /\
     results' = results ++ [dict_set (lit "File Name") file_name data]).
Proof.
  induction fuel as [|f IH]; intros attempt results; simpl.
  - repeat split; try lia; try reflexivity; intros k [].
  - destruct (analyze_call (generate_content attempt) text) as [[|x d]|] eqn:A.
    + exfalso. apply (analyze_call_nonempty _ _ _ A). reflexivity.
    + simpl. repeat split; try lia.
      * intros H. rewrite (H attempt (or_introl eq_refl)) in A. discriminate.
      * intros k [<-|[]] _. exists (x :: d). split; [exact A|reflexivity].
    + specialize (IH (S attempt) results).
      destruct (retry_loop generate_content file_name text (S attempt) f results)
        as [r ev] eqn:R.
      destruct IH as [H1 [H2 [H3 [H4 H5]]]]. simpl.
      repeat split.
      * lia.
      * f_equal. exact H2.
      * lia.
      * intros H. apply H4. intros k Hk. apply H. right. exact Hk.
      * intros k [<-|Hk] Hne; [contradiction|]. apply H5; assumption.
Qed.

(** C9: for one uploaded file, the loop makes at most 3 analysis attempts,
    numbered 0, 1, 2 in order (at least one when the extracted text is not
    blank); if every attempt made returns no record, the results are
    unchanged; if an attempt returns a record, the results gain exactly that
    record with "File Name" set to the file's name. *)
Theorem process_file_retries (PdfReader : pdf_reader)
    (generate_content : nat -> pystr -> option pystr) (file_name : pystr)
    (file_bytes : bytes) (results results' : list record) (ev : list event) :
  process_file PdfReader generate_content file_name file_bytes results = (results', ev) ->
  List.length (attempts ev) <= 3 /\
  attempts ev = seq 0 (List.length (attempts ev)) /\
  (truthy (strip (extract_text_from_pdf PdfReader file_bytes)) = true ->
   1 <= List.length (attempts ev)) /\
  ((forall k, In k (attempts ev) ->
     analyze_call (generate_content k) (extract_text_from_pdf PdfReader file_bytes) = None) ->
   results' = results) /\
  (forall k, In k (attempts ev) ->
   analyze_call (generate_content k) (extract_text_from_pdf PdfReader file_bytes) <> None ->
   exists data,
     analyze_call (generate_content k) (extract_text_from_pdf PdfReader file_bytes) = Some data /\
     results' = results ++ [dict_set (lit "File Name") file_name data] /\
     dict_get (lit "File Name") (dict_set (lit "File Name") file_name data) = Some file_name).
Proof.
  unfold process_file.
  set (text := extract_text_from_pdf PdfReader file_bytes).
  intros H.
  assert (Hev : forall e0, attempts (e0 ++ [Sleep_ms 1000]) = attempts e0).
  { intros e0. unfold attempts. rewrite flat_map_app. simpl. apply app_nil_r. }
  destruct (truthy (strip text)) eqn:T.
  - pose proof (retry_loop_spec generate_content file_name text 3 0 results) as S.
    destruct (retry_loop generate_content file_name text 0 3 results) as [r e0].
    injection H as <- <-. rewrite Hev.
    destruct S as [H1 [H2 [H3 [H4 H5]]]].
    repeat split; try assumption.
    + intros _. apply H3. lia.
    + intros k Hk Hne. destruct (H5 k Hk Hne) as [data [Hd Hr]].
      exists data. split; [exact Hd|]. split; [exact Hr|]. apply dict_get_set_same.
  - simpl in H. injection H as Hr He. subst results' ev. simpl.
    repeat split; try lia; try reflexivity; try discriminate; intros k [].
Qed.

Lemma process_file_retries_witness :
  exists results' ev,
    process_file pdf_one_page flaky_model (lit "call1.pdf") [] [] = (results', ev) /\
    attempts ev = [0; 1; 2] /\ List.length results' = 1 /\
    (List.length (attempts ev) <= 3 /\
     attempts ev = seq 0 (List.length (attempts ev)) /\
     (truthy (strip (extract_text_from_pdf pdf_one_page [])) = true ->
      1 <= List.length (attempts ev)) /\
     ((forall k, In k (attempts ev) ->
        analyze_call (flaky_model k) (extract_text_from_pdf pdf_one_page []) = None) ->
      results' = []) /\
     (forall k, In k (attempts ev) ->
      analyze_call (flaky_model k) (extract_text_from_pdf pdf_one_page []) <> None ->
      exists data,
        analyze_call (flaky_model k) (extract_text_from_pdf pdf_one_page []) = Some data /\
        results' = [] ++ [dict_set (lit "File Name") (lit "call1.pdf") data] /\
        dict_get (lit "File Name") (dict_set (lit "File Name") (lit "call1.pdf") data) =
          Some (lit "call1.pdf"))).
Proof.
  eexists. eexists. split; [reflexivity|]. split; [reflexivity|]. split; [reflexivity|].
  apply (process_file_retries pdf_one_page flaky_model (lit "call1.pdf") [] []).
  reflexivity.
Defined.

(** * Further properties of the code *)

(** ** Splitting replies *)

Lemma split3_nonempty_aux : forall k (s cur : pystr),
  List.length s <= k -> split3 cur s <> [].
Proof.
  induction k as [|k IH]; intros s cur Hk.
  - destruct s; [discriminate|simpl in Hk; lia].
  - destruct s as [|c1 [|c2 [|c3 rest]]]; try discriminate.
    rewrite split3_cons3. simpl in Hk.
    destruct (is_hash c1 && is_hash c2 && is_hash c3); [discriminate|].
    apply IH. simpl. lia.
Qed.

Lemma split3_nonempty (cur s : pystr) : split3 cur s <> [].
Proof. apply (split3_nonempty_aux (List.length s)). lia. Qed.

Lemma join3_cons (s : pystr) (rest : list pystr) :
  rest <> [] -> join3 (s :: rest) = s ++ [35; 35; 35]%N ++ join3 rest.
Proof. destruct rest; [contradiction|reflexivity]. Qed.

Lemma is_hash_true (c : N) : is_hash c = true -> c = 35%N.
Proof. unfold is_hash. apply N.eqb_eq. Qed.

Lemma join3_split3 : forall k (s cur : pystr),
  List.length s <= k -> join3 (split3 cur s) = rev cur ++ s.
Proof.
  induction k as [|k IH]; intros s cur Hk.
  - destruct s; [|simpl in Hk; lia]. simpl. rewrite app_nil_r. reflexivity.
  - destruct s as [|c1 [|c2 [|c3 rest]]].
    + simpl. rewrite app_nil_r. reflexivity.
    + simpl; rewrite <- ?app_assoc; reflexivity.
    + simpl; rewrite <- ?app_assoc; reflexivity.
    + rewrite split3_cons3. simpl in Hk.
      destruct (is_hash c1 && is_hash c2 && is_hash c3) eqn:H.
      * apply andb_prop in H. destruct H as [H H3]. apply andb_prop in H.
        destruct H as [H1 H2].
        apply is_hash_true in H1, H2, H3. subst.
        rewrite join3_cons by apply split3_nonempty.
        rewrite (IH rest []) by lia. reflexivity.
      * rewrite (IH (c2 :: c3 :: rest) (c1 :: cur)) by (simpl; lia).
        simpl. rewrite <- app_assoc. reflexivity.
Qed.

(** Splitting a reply on '###' loses nothing: joining the segments back with
    '###' gives the text that was split. *)
Theorem split_hash3_join (s : pystr) : join3 (split_hash3 s) = s.
Proof. unfold split_hash3. apply (join3_split3 (List.length s)). lia. Qed.

(** ** The prompt of analyze_call *)

(** Only the first 30000 characters of a transcript reach the model:
    anything after them leaves the analysis unchanged. *)
Theorem analyze_call_truncates (generate_content : pystr -> option pystr)
    (text extra : pystr) :
  30000 <= List.length text ->
  analyze_call generate_content (text ++ extra) = analyze_call generate_content text.
Proof.
  intros H. unfold analyze_call, analyze_prompt.
  rewrite firstn_app. replace (30000 - List.length text) with 0 by lia.
  rewrite firstn_O, app_nil_r. reflexivity.
Qed.

Lemma analyze_call_truncates_witness :
  analyze_call (fun p => Some p) (repeat 97%N 30000 ++ lit "tail") =
  analyze_call (fun p => Some p) (repeat 97%N 30000).
Proof.
  apply analyze_call_truncates. rewrite repeat_length. lia.
Defined.

(** ** The model selected *)

(** get_gemini_model only ever returns the name of a listed model that
    supports generateContent. *)
Theorem get_gemini_model_listed (ms : list model_info) (m : pystr) :
  get_gemini_model (Some ms) = Some m ->
  exists mi, In mi ms /\ name mi = m /\
    existsb (str_eqb (lit "generateContent")) (supported_generation_methods mi) = true.
Proof.
  unfold get_gemini_model. rewrite choose_model_cases. intros H.
  assert (Hin : In m (available_models ms)).
  { destruct (find is_flash_15 (available_models ms)) as [x|] eqn:F.
    - injection H as <-. apply find_some in F. apply F.
    - destruct (find is_pro_15 (available_models ms)) as [x|] eqn:P.
      + injection H as <-. apply find_some in P. apply P.
      + destruct (available_models ms) as [|x rest]; [discriminate|].
        destruct (truthy x); [|discriminate]. injection H as <-. left. reflexivity. }
  unfold available_models in Hin. apply in_map_iff in Hin.
  destruct Hin as [mi [Hn Hf]]. apply filter_In in Hf.
  exists mi. tauto.
Qed.

Lemma get_gemini_model_listed_witness :
  exists mi, In mi [{| name := lit "models/embedding-001";
                       supported_generation_methods := [lit "embedContent"] |};
                    model_named (lit "models/gemini-1.0-pro")] /\
    name mi = lit "models/gemini-1.0-pro" /\
    existsb (str_eqb (lit "generateContent")) (supported_generation_methods mi) = true.
Proof.
  apply (get_gemini_model_listed
           [{| name := lit "models/embedding-001";
               supported_generation_methods := [lit "embedContent"] |};
            model_named (lit "models/gemini-1.0-pro")]).
  reflexivity.
Defined.

(** ** The text of a PDF *)

Lemma extract_pages_shape (pages : list (option pystr)) :
  forall acc t, extract_pages acc pages = Some t ->
  t = acc \/ exists p, t = p ++ [10%N].
Proof.
  induction pages as [|[x|] pages IH]; intros acc t H; simpl in H.
  - injection H as <-. left. reflexivity.
  - destruct (IH _ _ H) as [E|E]; right; [|exact E].
    exists (acc ++ x). rewrite E, <- app_assoc. reflexivity.
  - discriminate.
Qed.

(** The extracted text is empty or ends with a newline. *)
Theorem extract_text_from_pdf_newline (PdfReader : pdf_reader) (file_bytes : bytes) :
  extract_text_from_pdf PdfReader file_bytes = [] \/
  exists p, extract_text_from_pdf PdfReader file_bytes = p ++ [10%N].
Proof.
  unfold extract_text_from_pdf.
  destruct (PdfReader file_bytes) as [pages|]; [|left; reflexivity].
  destruct (extract_pages [] pages) as [t|] eqn:E; [|left; reflexivity].
  exact (extract_pages_shape pages [] t E).
Qed.

(** ** One uploaded file *)

Lemma extract_text_unreadable (PdfReader : pdf_reader) (file_bytes : bytes) :
  (PdfReader file_bytes = None \/
   exists pages, PdfReader file_bytes = Some pages /\ In None pages) ->
  extract_text_from_pdf PdfReader file_bytes = [].
Proof.
  unfold extract_text_from_pdf. intros [H|[pages [H Hin]]]; rewrite H; [reflexivity|].
  rewrite (extract_pages_failing_page pages Hin). reflexivity.
Qed.

Lemma process_file_no_text (PdfReader : pdf_reader)
    (generate_content : nat -> pystr -> option pystr) (file_name : pystr)
    (file_bytes : bytes) (results : list record) :
  truthy (strip (extract_text_from_pdf PdfReader file_bytes)) = false ->
  process_file PdfReader generate_content file_name file_bytes results =
    (results, [Sleep_ms 1000]).
Proof. intros H. unfold process_file. rewrite H. reflexivity. Qed.

(** A PDF that cannot be read, or with a page that cannot be extracted,
    never reaches the model: no attempt is made, the results are unchanged
    and the only pause is the one second after the file. *)
Theorem process_file_unreadable (PdfReader : pdf_reader)
    (generate_content : nat -> pystr -> option pystr) (file_name : pystr)
    (file_bytes : bytes) (results : list record) :
  (PdfReader file_bytes = None \/
   exists pages, PdfReader file_bytes = Some pages /\ In None pages) ->
  process_file PdfReader generate_content file_name file_bytes results =
    (results, [Sleep_ms 1000]).
Proof.
  intros H. apply process_file_no_text.
  rewrite (extract_text_unreadable PdfReader file_bytes H). reflexivity.
Qed.

Lemma process_file_unreadable_witness :
  process_file (fun _ => Some [Some (lit "page 1"); None]) flaky_model
    (lit "call.pdf") [] [] = ([], [Sleep_ms 1000]).
Proof.
  apply process_file_unreadable. right.
  exists [Some (lit "page 1"); None]. split; [reflexivity|]. right. left. reflexivity.
Defined.

Lemma total_sleep_app (ev ev' : list event) :
  total_sleep (ev ++ ev') = total_sleep ev + total_sleep ev'.
Proof.
  induction ev as [|[k|ms] ev IH]; cbn [app]; unfold total_sleep in *; cbn [fold_right];
    rewrite ?IH; lia.
Qed.

Lemma attempts_app (ev ev' : list event) :
  attempts (ev ++ ev') = attempts ev ++ attempts ev'.
Proof. unfold attempts. apply flat_map_app. Qed.

Lemma retry_loop_sleep (generate_content : nat -> pystr -> option pystr)
    (file_name text : pystr) :
  forall fuel attempt results,
  total_sleep (snd (retry_loop generate_content file_name text attempt fuel results)) =
  2000 * List.length
    (filter (fun k => match analyze_call (generate_content k) text with
                      | Some _ => false | None => true end)
       (attempts (snd (retry_loop generate_content file_name text attempt fuel results)))).
Proof.
  induction fuel as [|f IH]; intros attempt results; [reflexivity|].
  cbn [retry_loop].
  destruct (analyze_call (generate_content attempt) text) as [[|x d]|] eqn:A.
  - exfalso. apply (analyze_call_nonempty _ _ _ A). reflexivity.
  - cbn [snd attempts flat_map app filter]. rewrite A. reflexivity.
  - specialize (IH (S attempt) results).
    destruct (retry_loop generate_content file_name text (S attempt) f results)
      as [r ev] eqn:R.
    cbn [snd] in IH |- *.
    replace (attempts (Attempt attempt :: Sleep_ms 2000 :: ev))
      with (attempt :: attempts ev) by reflexivity.
    cbn [filter]. rewrite A. cbn [List.length].
    replace (total_sleep (Attempt attempt :: Sleep_ms 2000 :: ev))
      with (2000 + total_sleep ev) by reflexivity.
    rewrite IH. lia.
Qed.

(** The pauses for one file add up to one second, plus two seconds for
    every attempt whose model call failed. *)
Theorem process_file_sleep (PdfReader : pdf_reader)
    (generate_content : nat -> pystr -> option pystr) (file_name : pystr)
    (file_bytes : bytes) (results results' : list record) (ev : list event) :
  process_file PdfReader generate_content file_name file_bytes results = (results', ev) ->
  total_sleep ev =
  1000 + 2000 * List.length
    (filter (fun k => match analyze_call (generate_content k)
                              (extract_text_from_pdf PdfReader file_bytes) with
                      | Some _ => false | None => true end)
       (attempts ev)).
Proof.
  unfold process_file.
  set (text := extract_text_from_pdf PdfReader file_bytes).
  destruct (truthy (strip text)).
  - pose proof (retry_loop_sleep generate_content file_name text 3 0 results) as S.
    destruct (retry_loop generate_content file_name text 0 3 results) as [r ev0].
    intros H. injection H as _ <-. cbn [snd] in S.
    rewrite total_sleep_app, attempts_app, filter_app, length_app, S.
    replace (total_sleep [Sleep_ms 1000]) with 1000 by reflexivity.
    replace (attempts [Sleep_ms 1000]) with (@nil nat) by reflexivity.
    cbn [filter List.length]. lia.
  - intros H. injection H as _ <-. reflexivity.
Qed.

Lemma process_file_sleep_witness :
  total_sleep (snd (process_file pdf_one_page flaky_model (lit "call.pdf") [] [])) = 5000.
Proof.
  assert (H := process_file_sleep pdf_one_page flaky_model (lit "call.pdf") [] [] _ _
                 (surjective_pairing _)).
  rewrite H. vm_compute. reflexivity.
Defined.

(** ** The summary of one CSM *)

Lemma str_eqb_true (a b : pystr) : str_eqb a b = true -> a = b.
Proof. unfold str_eqb. destruct (list_eq_dec N.eq_dec a b); [auto|discriminate]. Qed.

Lemma str_eqb_refl (a : pystr) : str_eqb a a = true.
Proof. unfold str_eqb. destruct (list_eq_dec N.eq_dec a a); [reflexivity|contradiction]. Qed.

Lemma filter_other_csms (csm_name : pystr) (l : list record) :
  (forall r, In r l -> dict_get (lit "CSM Name") r <> Some csm_name) ->
  filter (fun r => match dict_get (lit "CSM Name") r with
                   | Some v => str_eqb v csm_name
                   | None => false
                   end) l = [].
Proof.
  induction l as [|r l IH]; intros H; [reflexivity|]. cbn [filter].
  destruct (dict_get (lit "CSM Name") r) as [v|] eqn:E.
  - destruct (str_eqb v csm_name) eqn:Q.
    + apply str_eqb_true in Q. subst v. exfalso. exact (H r (or_introl eq_refl) E).
    + apply IH. intros r' Hr'. apply H. right. exact Hr'.
  - apply IH. intros r' Hr'. apply H. right. exact Hr'.
Qed.

(** On a table whose rows all have the "CSM Name" column and the five
    columns of the summary, and which keeps at least one row (the table of
    a run: lines 106 and 108 raise KeyError otherwise), the rows of other
    CSMs have no effect on a CSM's summary: removing them from the table
    gives the same summary. *)
Theorem generate_csm_summary_other_rows (to_csv : list record -> pystr)
    (json_loads : pystr -> option json) (generate_content : pystr -> option pystr)
    (df1 other df2 : list record) (csm_name : pystr) :
  forallb (fun r => forallb (fun c => match dict_get c r with
                                      | Some _ => true
                                      | None => false
                                      end) (lit "CSM Name" :: summary_cols))
    (df1 ++ other ++ df2) = true ->
  df1 ++ df2 <> [] ->
  (forall r, In r other -> dict_get (lit "CSM Name") r <> Some csm_name) ->
  generate_csm_summary to_csv json_loads generate_content (df1 ++ other ++ df2) csm_name =
  generate_csm_summary to_csv json_loads generate_content (df1 ++ df2) csm_name.
Proof.
  intros _ _ H. unfold generate_csm_summary, summary_request.
  cbv zeta. rewrite !filter_app.
  match goal with
  | |- context [@filter ?T ?f other] =>
      replace (@filter T f other) with (@nil T)
        by (symmetry; exact (filter_other_csms csm_name other H))
  end.
  reflexivity.
Qed.

Lemma generate_csm_summary_other_rows_witness :
  generate_csm_summary (fun _ => []) (fun _ => None) (fun _ => None)
    ([build_record (pad17 [lit "Asha"; lit "Meera"])] ++
     [build_record (pad17 [lit "Ravi"; lit "Kiran"])] ++ []) (lit "Asha") =
  generate_csm_summary (fun _ => []) (fun _ => None) (fun _ => None)
    ([build_record (pad17 [lit "Asha"; lit "Meera"])] ++ []) (lit "Asha").
Proof.
  apply generate_csm_summary_other_rows.
  - vm_compute. reflexivity.
  - discriminate.
  - intros r [<-|[]] E. vm_compute in E. discriminate E.
Defined.

(** ** Cleaning a reply *)

Lemma replace_fuel_plain (o new : pystr) :
  forall body rest fuel, ~ In 96%N body -> List.length body <= fuel ->
  replace_fuel fuel (96%N :: o) new (body ++ rest) =
  body ++ replace_fuel (fuel - List.length body) (96%N :: o) new rest.
Proof.
  induction body as [|c body IH]; intros rest fuel Hin Hl.
  - rewrite Nat.sub_0_r. reflexivity.
  - destruct fuel as [|f]; [cbn [List.length] in Hl; lia|].
    cbn [app replace_fuel prefixb].
    replace ((96 =? c)%N) with false.
    + cbn [andb app List.length]. rewrite IH; [reflexivity| |cbn [List.length] in Hl; lia].
      intros H. apply Hin. right. exact H.
    + symmetry. apply N.eqb_neq. intros E. apply Hin. left. symmetry. exact E.
Qed.

Lemma replace_fuel_nil (fuel : nat) (old new : pystr) : replace_fuel fuel old new [] = [].
Proof. destruct fuel; reflexivity. Qed.

Lemma replace_fuel_absent (fuel : nat) (o new s : pystr) :
  ~ In 96%N s -> replace_fuel fuel (96%N :: o) new s = s.
Proof.
  intros H. destruct (le_lt_dec (List.length s) fuel) as [L|L].
  - rewrite <- (app_nil_r s) at 1.
    rewrite (replace_fuel_plain o new s [] fuel H L), replace_fuel_nil.
    apply app_nil_r.
  - revert s H L. induction fuel as [|f IH]; intros s H L; [reflexivity|].
    destruct s as [|c s]; [reflexivity|]. cbn [replace_fuel prefixb].
    replace ((96 =? c)%N) with false.
    + cbn [andb]. rewrite IH; [reflexivity| |cbn [List.length] in L; lia].
      intros Hs. apply H. right. exact Hs.
    + symmetry. apply N.eqb_neq. intros E. apply H. left. symmetry. exact E.
Qed.

Lemma prefixb_app (p s : pystr) : prefixb p (p ++ s) = true.
Proof. induction p as [|c p IH]; [reflexivity|]. cbn. rewrite N.eqb_refl. exact IH. Qed.

Lemma skipn_length_app (l r : pystr) : skipn (List.length l) (l ++ r) = r.
Proof. induction l as [|c l IH]; [reflexivity|]. exact IH. Qed.

Lemma replace_fuel_prefix (fuel : nat) (old new rest : pystr) :
  old <> [] ->
  replace_fuel (S fuel) old new (old ++ rest) = new ++ replace_fuel fuel old new rest.
Proof.
  intros Ho. destruct old as [|c o]; [contradiction|].
  pose proof (prefixb_app (c :: o) rest) as P.
  pose proof (skipn_length_app (c :: o) rest) as K.
  cbn [app] in P, K |- *. cbn [replace_fuel]. rewrite P, K. reflexivity.
Qed.

(** A reply without a backtick is only stripped. *)
Theorem clean_reply_plain (text : pystr) :
  ~ In 96%N text -> clean_reply text = strip text.
Proof.
  intros H. unfold clean_reply, py_replace.
  change (lit "```json") with (96%N :: lit "``json").
  rewrite (replace_fuel_absent _ _ _ _ H).
  change (lit "```") with (96%N :: lit "``").
  rewrite (replace_fuel_absent _ _ _ _ H). reflexivity.
Qed.

Lemma clean_reply_plain_witness :
  clean_reply (lit " {} ") = strip (lit " {} ").
Proof.
  apply clean_reply_plain. cbn. intros [H|[H|[H|[H|[]]]]]; discriminate H.
Defined.

(** A reply fenced as a json code block gives the stripped text inside the
    fence, when that text has no backtick. *)
Theorem clean_reply_unfence (body : pystr) :
  ~ In 96%N body -> clean_reply (lit "```json" ++ body ++ lit "```") = strip body.
Proof.
  intros H. unfold clean_reply, py_replace.
  replace (List.length (lit "```json" ++ body ++ lit "```"))
    with (S (List.length body + 9)) by (rewrite !length_app; cbn; lia).
  rewrite replace_fuel_prefix by discriminate. rewrite app_nil_l.
  change (lit "```json") with (96%N :: lit "``json").
  rewrite (replace_fuel_plain _ _ body _ _ H) by lia.
  replace (List.length body + 9 - List.length body) with 9 by lia.
  replace (replace_fuel 9 (96%N :: lit "``json") [] (lit "```")) with (lit "```")
    by reflexivity.
  replace (List.length (body ++ lit "```")) with (List.length body + 3)
    by (rewrite length_app; reflexivity).
  change (lit "```") with (96%N :: lit "``").
  rewrite (replace_fuel_plain _ _ body _ _ H) by lia.
  replace (List.length body + 3 - List.length body) with 3 by lia.
  replace (replace_fuel 3 (96%N :: lit "``") [] (96%N :: lit "``")) with (@nil N)
    by reflexivity.
  rewrite app_nil_r. reflexivity.
Qed.

Lemma clean_reply_unfence_witness :
  clean_reply (lit "```json" ++ lit " {} " ++ lit "```") = strip (lit " {} ").
Proof.
  apply clean_reply_unfence. cbn. intros [H|[H|[H|[H|[]]]]]; discriminate H.
Defined.

(** ** The distinct CSM names *)

Lemma existsb_str_eqb_In (x : pystr) (l : list pystr) :
  existsb (str_eqb x) l = true <-> In x l.
Proof.
  rewrite existsb_exists. split.
  - intros [y [Hy E]]. apply str_eqb_true in E. subst y. exact Hy.
  - intros Hx. exists x. split; [exact Hx|apply str_eqb_refl].
Qed.

Lemma unique_from_spec (l : list pystr) :
  forall seen,
  NoDup (unique_from seen l) /\
  (forall x, In x (unique_from seen l) <-> In x l /\ ~ In x seen) /\
  subseq (unique_from seen l) l.
Proof.
  induction l as [|y l IH]; intros seen; cbn [unique_from].
  - split; [constructor|]. split; [|constructor]. intros x. cbn. tauto.
  - destruct (existsb (str_eqb y) seen) eqn:E.
    + apply existsb_str_eqb_In in E.
      destruct (IH seen) as [N [M S]]. split; [exact N|]. split; [|apply subseq_skip; exact S].
      intros x. rewrite M. cbn [In]. split; [tauto|].
      intros [[<-|Hx] Hs]; [contradiction|tauto].
    + destruct (IH (y :: seen)) as [N [M S]].
      assert (Ey : ~ In y seen) by (rewrite <- existsb_str_eqb_In, E; discriminate).
      split; [|split].
      * constructor; [|exact N]. rewrite M. cbn [In]. tauto.
      * intros x. cbn [In]. rewrite M. cbn [In].
        destruct (list_eq_dec N.eq_dec y x) as [<-|Dx]; [tauto|].
        split; [intros [H|[H1 H2]]; [contradiction|tauto]|].
        intros [[H|H] Hs]; [contradiction|]. right. split; [exact H|]. tauto.
      * apply subseq_take. exact S.
Qed.

(** [unique] keeps each CSM name exactly once: no name twice, every name
    of the column and nothing else, in the column's order. *)
Theorem unique_spec (l : list pystr) :
  NoDup (unique l) /\ (forall x, In x (unique l) <-> In x l) /\ subseq (unique l) l.
Proof.
  destruct (unique_from_spec l []) as [N [M S]]. unfold unique.
  split; [exact N|]. split; [|exact S].
  intros x. rewrite M. cbn [In]. tauto.
Qed.

Lemma unique_from_snoc (x : pystr) (l : list pystr) :
  forall seen, unique_from seen (l ++ [x]) =
  unique_from seen l ++ (if existsb (str_eqb x) (l ++ seen) then [] else [x]).
Proof.
  induction l as [|y l IH]; intros seen; cbn [app unique_from].
  - destruct (existsb (str_eqb x) seen); reflexivity.
  - cbn [existsb].
    destruct (existsb (str_eqb y) seen) eqn:E.
    + rewrite IH, !existsb_app.
      destruct (str_eqb x y) eqn:Q; [|reflexivity].
      apply str_eqb_true in Q. subst y. rewrite E, orb_true_r. cbn [orb].
      destruct (existsb (str_eqb x) l); reflexivity.
    + rewrite IH, !existsb_app. cbn [existsb app].
      destruct (str_eqb x y), (existsb (str_eqb x) l), (existsb (str_eqb x) seen);
        reflexivity.
Qed.

(** Appending a name to the column appends it to [unique] exactly when it
    was not there yet: the names come in the order of first appearance. *)
Theorem unique_snoc (l : list pystr) (x : pystr) :
  unique (l ++ [x]) = unique l ++ (if existsb (str_eqb x) l then [] else [x]).
Proof. unfold unique. rewrite unique_from_snoc, app_nil_r. reflexivity. Qed.

(** ** The results of a run *)

Lemma subseq_length {A : Type} (l1 l2 : list A) :
  subseq l1 l2 -> List.length l1 <= List.length l2.
Proof. induction 1; cbn [List.length]; lia. Qed.

Lemma analyze_call_keys (generate_content : pystr -> option pystr) (text : pystr)
    (data : record) :
  analyze_call generate_content text = Some data -> map fst data = analysis_keys.
Proof.
  unfold analyze_call. destruct (generate_content (analyze_prompt text)); [|discriminate].
  intros H. injection H as <-. apply build_record_keys.
Qed.

Lemma dict_set_absent {A} (k : pystr) (v : A) (d : list (pystr * A)) :
  ~ In k (map fst d) -> dict_set k v d = d ++ [(k, v)].
Proof.
  induction d as [|[k' v'] d IH]; intros H; [reflexivity|]. cbn [dict_set].
  destruct (list_eq_dec N.eq_dec k k') as [<-|Ne].
  - exfalso. apply H. left. reflexivity.
  - rewrite IH; [reflexivity|]. intros Hk. apply H. right. exact Hk.
Qed.

Lemma file_name_not_key : ~ In (lit "File Name") analysis_keys.
Proof. rewrite <- existsb_str_eqb_In. intros E. vm_compute in E. discriminate E. Qed.

Lemma file_record (generate_content : pystr -> option pystr) (text : pystr)
    (data : record) (file_name : pystr) :
  analyze_call generate_content text = Some data ->
  map fst (dict_set (lit "File Name") file_name data) = analysis_keys ++ [lit "File Name"] /\
  dict_get (lit "File Name") (dict_set (lit "File Name") file_name data) = Some file_name.
Proof.
  intros A. split; [|apply dict_get_set_same].
  rewrite dict_set_absent.
  - rewrite map_app, (analyze_call_keys _ _ _ A). reflexivity.
  - rewrite (analyze_call_keys _ _ _ A). exact file_name_not_key.
Qed.

Lemma retry_loop_results (generate_content : nat -> pystr -> option pystr)
    (file_name text : pystr) :
  forall fuel attempt results,
  fst (retry_loop generate_content file_name text attempt fuel results) = results \/
  exists g data, analyze_call g text = Some data /\
    fst (retry_loop generate_content file_name text attempt fuel results) =
      results ++ [dict_set (lit "File Name") file_name data].
Proof.
  induction fuel as [|f IH]; intros attempt results; [left; reflexivity|].
  cbn [retry_loop].
  destruct (analyze_call (generate_content attempt) text) as [[|x d]|] eqn:A.
  - specialize (IH (S attempt) results).
    destruct (retry_loop generate_content file_name text (S attempt) f results) as [r ev].
    exact IH.
  - right. exists (generate_content attempt), (x :: d). split; [exact A|reflexivity].
  - specialize (IH (S attempt) results).
    destruct (retry_loop generate_content file_name text (S attempt) f results) as [r ev].
    exact IH.
Qed.

Lemma process_file_results (PdfReader : pdf_reader)
    (generate_content : nat -> pystr -> option pystr) (file_name : pystr)
    (file_bytes : bytes) (results : list record) :
  fst (process_file PdfReader generate_content file_name file_bytes results) = results \/
  exists g text data, analyze_call g text = Some data /\
    fst (process_file PdfReader generate_content file_name file_bytes results) =
      results ++ [dict_set (lit "File Name") file_name data].
Proof.
  unfold process_file. cbv zeta.
  set (text := extract_text_from_pdf PdfReader file_bytes).
  destruct (truthy (strip text)); [|left; reflexivity].
  pose proof (retry_loop_results generate_content file_name text 3 0 results) as H.
  destruct (retry_loop generate_content file_name text 0 3 results) as [r ev].
  cbn [fst] in H |- *. destruct H as [H|[g [data [A H]]]].
  - left. exact H.
  - right. exists g, text, data. split; [exact A|exact H].
Qed.

Lemma analyze_files_new (PdfReader : pdf_reader)
    (generate_content : nat -> nat -> pystr -> option pystr) :
  forall files idx results,
  exists new, analyze_files PdfReader generate_content idx files results = results ++ new /\
  Forall (fun r => map fst r = analysis_keys ++ [lit "File Name"]) new /\
  subseq (map (dict_get (lit "File Name")) new) (map (fun f => Some (fst f)) files).
Proof.
  induction files as [|[file_name file_bytes] files IH]; intros idx results.
  - exists []. split; [symmetry; apply app_nil_r|]. split; constructor.
  - cbn [analyze_files map fst].
    destruct (process_file_results PdfReader (generate_content idx) file_name file_bytes
                results) as [H|[g [t [data [A H]]]]]; rewrite H.
    + destruct (IH (S idx) results) as [new [E [F S]]].
      exists new. split; [exact E|]. split; [exact F|]. apply subseq_skip. exact S.
    + destruct (IH (S idx) (results ++ [dict_set (lit "File Name") file_name data]))
        as [new [E [F S]]].
      destruct (file_record g t data file_name A) as [K G].
      exists (dict_set (lit "File Name") file_name data :: new). split.
      * rewrite E, <- app_assoc. reflexivity.
      * split; [constructor; assumption|]. cbn [map]. rewrite G. apply subseq_take. exact S.
Qed.

(** The results of the upload loop hold at most one record per file, in
    upload order; every record has the 17 analysis keys followed by
    File Name, which holds the name of the file it was read from. *)
Theorem analyze_files_records (PdfReader : pdf_reader)
    (generate_content : nat -> nat -> pystr -> option pystr)
    (files : list (pystr * bytes)) :
  Forall (fun r => map fst r = analysis_keys ++ [lit "File Name"])
    (analyze_files PdfReader generate_content 0 files []) /\
  subseq (map (dict_get (lit "File Name")) (analyze_files PdfReader generate_content 0 files []))
    (map (fun f => Some (fst f)) files).
Proof.
  destruct (analyze_files_new PdfReader generate_content files 0 []) as [new [E [F S]]].
  rewrite E. split; assumption.
Qed.

(** ** A run of the app *)

Lemma summarize_all_length (to_csv : list record -> pystr)
    (json_loads : pystr -> option json) (generate_content : nat -> pystr -> option pystr)
    (df : list record) (csms : list pystr) :
  forall i, List.length (summarize_all to_csv json_loads generate_content i df csms) =
            List.length csms.
Proof. induction csms as [|c csms IH]; intros i; cbn; [reflexivity|]. rewrite IH. reflexivity. Qed.

Lemma analyze_files_no_text (PdfReader : pdf_reader)
    (generate_content : nat -> nat -> pystr -> option pystr) :
  forall files idx results,
  Forall (fun f => truthy (strip (extract_text_from_pdf PdfReader (snd f))) = false) files ->
  analyze_files PdfReader generate_content idx files results = results.
Proof.
  induction files as [|[file_name file_bytes] files IH]; intros idx results H; [reflexivity|].
  inversion H as [|f l Hf Hl]; subst. cbn [analyze_files].
  rewrite (process_file_no_text _ _ _ _ _ Hf). apply IH. exact Hl.
Qed.

(** A run that shows an error leaves the session as it was: the results of
    an earlier run stay in place. *)
Theorem run_analysis_error_keeps_session (list_models : option (list model_info))
    (PdfReader : pdf_reader) (analysis_model : nat -> nat -> pystr -> option pystr)
    (summary_model : nat -> pystr -> option pystr) (json_loads : pystr -> option json)
    (to_csv : list record -> pystr) (files : list (pystr * bytes)) (st : session) :
  snd (run_analysis list_models PdfReader analysis_model summary_model json_loads to_csv
         files st) <> [] ->
  fst (run_analysis list_models PdfReader analysis_model summary_model json_loads to_csv
         files st) = st.
Proof.
  unfold run_analysis. destruct (get_gemini_model list_models); [|reflexivity].
  destruct (analyze_files PdfReader analysis_model 0 files []); [reflexivity|].
  intros H. exfalso. apply H. reflexivity.
Qed.

Lemma run_analysis_error_keeps_session_witness :
  fst (run_analysis (Some []) pdf_one_page (fun _ => flaky_model) (fun _ _ => None)
         (fun _ => None) (fun _ => []) [(lit "call.pdf", [])]
         {| analysis_results := Some [[(lit "CSM Name", lit "Asha")]];
            csm_summary := None |}) =
  {| analysis_results := Some [[(lit "CSM Name", lit "Asha")]]; csm_summary := None |}.
Proof.
  apply run_analysis_error_keeps_session. vm_compute. discriminate.
Defined.

(** When a model is found but no uploaded PDF gives any text (unreadable or
    blank), the model is never asked for an analysis and the run reports
    that no results could be extracted. *)
Theorem run_analysis_no_text (list_models : option (list model_info))
    (PdfReader : pdf_reader) (analysis_model : nat -> nat -> pystr -> option pystr)
    (summary_model : nat -> pystr -> option pystr) (json_loads : pystr -> option json)
    (to_csv : list record -> pystr) (files : list (pystr * bytes)) (st : session) :
  get_gemini_model list_models <> None ->
  Forall (fun f => truthy (strip (extract_text_from_pdf PdfReader (snd f))) = false) files ->
  run_analysis list_models PdfReader analysis_model summary_model json_loads to_csv files st =
    (st, [err_no_results]).
Proof.
  intros Hm Hf. unfold run_analysis.
  destruct (get_gemini_model list_models); [|contradiction].
  rewrite (analyze_files_no_text PdfReader analysis_model files 0 [] Hf). reflexivity.
Qed.

Lemma run_analysis_no_text_witness :
  run_analysis (Some [model_named (lit "models/gemini-1.5-flash")]) (fun _ => None)
    (fun _ => flaky_model) (fun _ _ => None) (fun _ => None) (fun _ => [])
    [(lit "a.pdf", []); (lit "b.pdf", [])]
    {| analysis_results := None; csm_summary := None |} =
  ({| analysis_results := None; csm_summary := None |}, [err_no_results]).
Proof.
  apply run_analysis_no_text.
  - vm_compute. discriminate.
  - repeat constructor.
Defined.

(** When every reply that json.loads parses is a JSON object (otherwise
    pd.DataFrame(summaries) at line 203 may raise), a run without error
    stores a non-empty results table with at most one row per uploaded
    file, and one summary per distinct CSM name, so never more summaries
    than rows. *)
Theorem run_analysis_success (list_models : option (list model_info))
    (PdfReader : pdf_reader) (analysis_model : nat -> nat -> pystr -> option pystr)
    (summary_model : nat -> pystr -> option pystr) (json_loads : pystr -> option json)
    (to_csv : list record -> pystr) (files : list (pystr * bytes)) (st : session) :
  (forall t v, json_loads t = Some v -> exists members, v = JObject members) ->
  snd (run_analysis list_models PdfReader analysis_model summary_model json_loads to_csv
         files st) = [] ->
  get_gemini_model list_models <> None /\
  exists results sums,
    analysis_results (fst (run_analysis list_models PdfReader analysis_model summary_model
                             json_loads to_csv files st)) = Some results /\
    csm_summary (fst (run_analysis list_models PdfReader analysis_model summary_model
                        json_loads to_csv files st)) = Some sums /\
    results <> [] /\
    List.length results <= List.length files /\
    List.length sums = List.length (unique (csm_column results)) /\
    List.length sums <= List.length results.
Proof.
  intros _.
  destruct (analyze_files_new PdfReader analysis_model files 0 []) as [new [E [_ S]]].
  cbn [app] in E. unfold run_analysis.
  destruct (get_gemini_model list_models); [|discriminate].
  rewrite E. destruct new as [|r rs]; [discriminate|]. intros _.
  split; [discriminate|].
  eexists; eexists. split; [reflexivity|]. split; [reflexivity|]. split; [discriminate|].
  apply subseq_length in S. rewrite !length_map in S.
  rewrite summarize_all_length.
  destruct (unique_from_spec (csm_column (r :: rs)) []) as [_ [_ U]].
  apply subseq_length in U. unfold unique, csm_column in *. rewrite length_map in U.
  split; [exact S|]. split; [reflexivity|exact U].
Qed.

Lemma run_analysis_success_witness :
  get_gemini_model (Some [model_named (lit "models/gemini-1.5-flash")]) <> None /\
  exists results sums,
    analysis_results (fst (run_analysis (Some [model_named (lit "models/gemini-1.5-flash")])
       pdf_one_page (fun _ => flaky_model) (fun _ _ => None) (fun _ => None) (fun _ => [])
       [(lit "a.pdf", []); (lit "b.pdf", [])]
       {| analysis_results := None; csm_summary := None |})) = Some results /\
    csm_summary (fst (run_analysis (Some [model_named (lit "models/gemini-1.5-flash")])
       pdf_one_page (fun _ => flaky_model) (fun _ _ => None) (fun _ => None) (fun _ => [])
       [(lit "a.pdf", []); (lit "b.pdf", [])]
       {| analysis_results := None; csm_summary := None |})) = Some sums /\
    results <> [] /\
    List.length results <= List.length [(lit "a.pdf", @nil Byte.byte); (lit "b.pdf", [])] /\
    List.length sums = List.length (unique (csm_column results)) /\
    List.length sums <= List.length results.
Proof.
  apply run_analysis_success.
  - intros t v E. discriminate E.
  - vm_compute. reflexivity.
Defined.
